(** * The update_workflow tool handler of the n8n MCP server

    A shallow embedding of [src/tools/workflow/update.ts]: the values the
    handler receives and forwards, the two calls it makes on the API
    collaborator, and the async function [UpdateWorkflowHandler.execute]
    passes to [handleExecution]. *)

From Stdlib Require Import Ascii String PrimFloat FloatOps SpecFloat.
From stdpp Require Import gmap strings list fin_maps pretty.

Local Open Scope string_scope.

(** ** JavaScript values

    [args] is a [Record<string, any>] and the workflows come back from the
    REST client, so the handler sees plain data: primitives, arrays and
    objects, plus [undefined] for what is not there.  Arrays and objects
    carry the reference that [===] compares. *)

#[warnings="-register-all"]
Inductive value : Type :=
| VUndefined
| VNull
| VBool (b : bool)
| VNumber (x : float)
| VString (s : string)
| VArray (ref : nat) (elems : list value)
| VObject (ref : nat) (props : gmap string value).

(** A [Record<string, any>]: the own properties of an object. *)
Abbreviation object := (gmap string value).

(** [o.k]: reading a property that is not there gives [undefined]. *)
Definition get (o : object) (k : string) : value :=
  default VUndefined (o !! k).

Module JS.

(** ToBoolean: [undefined], [null], [false], [+0], [-0], [NaN] and the
    empty string are falsy, everything else is truthy. *)
Definition truthy (v : value) : bool :=
  match v with
  | VUndefined | VNull => false
  | VBool b => b
  | VNumber x => negb (PrimFloat.eqb x 0 || negb (PrimFloat.eqb x x))
  | VString s => negb (String.eqb s "")
  | VArray _ _ | VObject _ _ => true
  end.

(** [Array.isArray]. *)
Definition isArray (v : value) : bool :=
  match v with VArray _ _ => true | _ => false end.

(** The [typeof] operator. *)
Definition typeof (v : value) : string :=
  match v with
  | VUndefined => "undefined"
  | VNull => "object"
  | VBool _ => "boolean"
  | VNumber _ => "number"
  | VString _ => "string"
  | VArray _ _ | VObject _ _ => "object"
  end.

(** [a === b]: numbers by IEEE equality (so [NaN] differs from itself and
    the two zeros are equal), strings by content, arrays and objects by
    reference. *)
Definition strict_eq (a b : value) : bool :=
  match a, b with
  | VUndefined, VUndefined => true
  | VNull, VNull => true
  | VBool x, VBool y => Bool.eqb x y
  | VNumber x, VNumber y => PrimFloat.eqb x y
  | VString s, VString t => String.eqb s t
  | VArray r _, VArray r' _ => Nat.eqb r r'
  | VObject r _, VObject r' _ => Nat.eqb r r'
  | _, _ => false
  end.

(** [v !== undefined] *)
Definition defined (v : value) : bool :=
  negb (strict_eq v VUndefined).

(** *** Number::toString, radix 10 *)

Definition zeros (n : Z) : string :=
  String.concat "" (replicate (Z.to_nat n) "0").

(** The decimal significand [s] and the exponent [p] of the shortest
    decimal [s * 10^p] that reads back as [m * 2^e], the closest one to it
    when there are several.  [m * 2^e] and the midpoints to its two
    neighbours are [X / D], [LO / D] and [HI / D]; the midpoints read back
    as [m * 2^e] only when [m] is even. *)
Section Shortest.
Variables (m : positive) (e : Z).

Let t : Z := Z.max 0 (2 - e).
Let D : Z := 2 ^ t.
Let X : Z := Z.pos m * 2 ^ (e + t).
Let up : Z := 2 ^ (e + t - 1).
Let down : Z :=
  if (Z.pos m =? 2 ^ 52)%Z && (-1074 <? e)%Z then 2 ^ (e + t - 2) else up.
Let LO : Z := X - down.
Let HI : Z := X + up.
Let closed : bool := Z.even (Z.pos m).

Definition at_exponent (p : Z) : option Z :=
  let A := (10 ^ Z.max p 0 * D)%Z in
  let B := (10 ^ Z.max (- p) 0)%Z in
  let s_lo :=
    if closed then (- ((- (LO * B)) `div` A))%Z else ((LO * B) `div` A + 1)%Z in
  let s_hi :=
    if closed then ((HI * B) `div` A)%Z else (- ((- (HI * B)) `div` A) - 1)%Z in
  if (s_lo <=? s_hi)%Z && (1 <=? s_hi)%Z then
    let q := ((X * B) `div` A)%Z in
    let r := ((X * B) `mod` A)%Z in
    let nearest :=
      if (2 * r <? A)%Z then q
      else if (A <? 2 * r)%Z then (q + 1)%Z
      else if Z.even q then q else (q + 1)%Z in
    Some (Z.min s_hi (Z.max s_lo (Z.max 1 nearest)))
  else None.

Fixpoint search (fuel : nat) (p : Z) : Z * Z :=
  match at_exponent p, fuel with
  | Some s, _ => (s, p)
  | None, O => (0, p)%Z
  | None, S fuel => search fuel (p - 1)%Z
  end.

Definition shortest : Z * Z :=
  search 400 (((Z.log2 HI - t + 1) * 30103) `div` 100000 + 2)%Z.
End Shortest.

Definition Number_toString (x : float) : string :=
  match Prim2SF x with
  | S754_nan => "NaN"
  | S754_zero _ => "0"
  | S754_infinity sign => if sign then "-Infinity" else "Infinity"
  | S754_finite sign m e =>
      let '(s, p) := shortest m e in
      let digits := pretty (Z.to_N s) in
      let k := Z.of_nat (String.length digits) in
      let n := (k + p)%Z in
      let body :=
        if (k <=? n)%Z && (n <=? 21)%Z then
          digits ++ zeros (n - k)
        else if (0 <? n)%Z && (n <=? 21)%Z then
          String.substring 0 (Z.to_nat n) digits ++ "." ++
          String.substring (Z.to_nat n) (Z.to_nat (k - n)) digits
        else if (-6 <? n)%Z && (n <=? 0)%Z then
          "0." ++ zeros (- n) ++ digits
        else
          let exponent :=
            (if (n - 1 <? 0)%Z then "-" else "+") ++ pretty (Z.abs_N (n - 1)) in
          if (k =? 1)%Z then digits ++ "e" ++ exponent
          else String.substring 0 1 digits ++ "." ++
               String.substring 1 (Z.to_nat (k - 1)) digits ++ "e" ++ exponent
      in
      (if sign then "-" else "") ++ body
  end.

(** ToString, as a template literal applies it to [${v}]; [None] when it
    throws a TypeError.  An array prints as its elements joined by commas,
    [null] and [undefined] elements as nothing.  An object goes through
    OrdinaryToPrimitive: without an own [toString] key it inherits
    [Object.prototype.toString] and prints as [[object Object]]; with one,
    the key holds data, which is not callable, the inherited [valueOf]
    gives back the object (and an own [valueOf] is not callable either),
    so no primitive is found and the conversion throws. *)
Fixpoint ToString (v : value) : option string :=
  match v with
  | VUndefined => Some "undefined"
  | VNull => Some "null"
  | VBool b => Some (if b then "true" else "false")
  | VNumber x => Some (Number_toString x)
  | VString s => Some s
  | VArray _ elems =>
      let element (x : value) : option string :=
        match x with
        | VUndefined | VNull => Some ""
        | _ => ToString x
        end in
      (fix go (l : list value) : option string :=
         match l with
         | [] => Some ""
         | [x] => element x
         | x :: rest =>
             match element x, go rest with
             | Some first, Some others => Some (first ++ "," ++ others)
             | _, _ => None
             end
         end) elems
  | VObject _ props =>
      match props !! "toString" with
      | Some _ => None
      | None => Some "[object Object]"
      end
  end.

(** [Array.prototype.join] on an array of strings. *)
Definition join (sep : string) (l : list string) : string :=
  String.concat sep l.

(** [Array.prototype.push]. *)
Definition push {A} (l : list A) (x : A) : list A := l ++ [x].

End JS.

Export JS.

(** The double quote character, for the string literals that contain it. *)
Definition dq : string :=
  String (Ascii.Ascii false true false false false true false false) "".

(** ** Failures

    What an async function can reject with: an [N8nApiError] made by
    [new N8nApiError(message)], the TypeError of a conversion that fails
    (its message is the engine's), or whatever else a collaborator
    throws. *)
Inductive thrown : Type :=
| N8nApiError (message : string)
| TypeError
| Rejection (reason : value).

(** ** The API collaborator

    [this.apiService] talks to a remote n8n instance, whose state is [W].
    Each call resolves to a workflow or rejects, and may change the remote
    state. *)
Record ApiService (W : Type) : Type := {
  getWorkflow : value -> W -> (thrown + object) * W;
  updateWorkflow : value -> object -> W -> (thrown + object) * W
}.
Arguments getWorkflow {W} _ _ _.
Arguments updateWorkflow {W} _ _ _ _.

(** The remote calls made so far are recorded next to the remote state. *)
Inductive call : Type :=
| GetWorkflow (id : value)
| UpdateWorkflow (id : value) (workflowData : object).

Record world (W : Type) : Type := World {
  remote : W;
  calls : list call
}.
Arguments World {W} _ _.
Arguments remote {W} _.
Arguments calls {W} _.

(** ** Async functions: state passing with rejection *)
Definition Async (W A : Type) : Type :=
  world W -> (thrown + A) * world W.

Definition ret {W A} (x : A) : Async W A :=
  fun w => (inr x, w).

Definition throw {W A} (e : thrown) : Async W A :=
  fun w => (inl e, w).

Definition bind {W A B} (c : Async W A) (k : A -> Async W B) : Async W B :=
  fun w =>
    match c w with
    | (inl e, w') => (inl e, w')
    | (inr x, w') => k x w'
    end.

(** A synchronous step that returns or throws. *)
Definition lift {W A} (r : thrown + A) : Async W A :=
  fun w => (r, w).

(** [await] on a call of the collaborator: the call is made and recorded,
    a rejection is rethrown as it is. *)
Definition await {W} (c : call) (run : W -> (thrown + object) * W)
  : Async W object :=
  fun w =>
    let '(r, s) := run (remote w) in
    (r, World s (calls w ++ [c])).

Declare Scope async_scope.
Delimit Scope async_scope with async.
Notation "x <- c ;; k" := (bind c (fun x => k))
  (at level 100, c at next level, right associativity) : async_scope.
Notation "'throw_if' b 'then' e ;; k" :=
  (if b then throw e else k)
  (at level 100, b at next level, e at next level, right associativity)
  : async_scope.

(** ** The base class

    [UpdateWorkflowHandler] extends [BaseWorkflowToolHandler], which lives
    in [base-handler.ts]; the handler uses three of its members, taken here
    as the interface they have at their call sites: the API collaborator,
    [formatSuccess(data, message)] and [handleExecution(fn, args)].  [T] is
    [ToolCallResult]. *)
Class BaseWorkflowToolHandler (W T : Type) : Type := {
  apiService : ApiService W;
  formatSuccess : object -> string -> T;
  handleExecution : (object -> Async W T) -> object -> Async W T
}.

(** ** UpdateWorkflowHandler *)

(** The five fields of a workflow an update can carry. *)
Definition fields : list string :=
  ["name"; "nodes"; "connections"; "settings"; "staticData"].

Section UpdateWorkflowHandler.
Context {W T : Type} {base : BaseWorkflowToolHandler W T}.
Local Open Scope async_scope.

(** Lines 44-59, "Build update payload from scratch, only allowed
    fields": the object [workflowData] after the five assignments. *)
Definition workflowData (args currentWorkflow : object) : object :=
  let name := get args "name" in
  let nodes := get args "nodes" in
  let connections := get args "connections" in
  let settings := get args "settings" in
  let staticData := get args "staticData" in
  let workflowData : object := ∅ in
  let workflowData :=
    if defined name then <["name" := name]> workflowData
    else if defined (get currentWorkflow "name")
    then <["name" := get currentWorkflow "name"]> workflowData
    else workflowData in
  let workflowData :=
    if defined nodes then <["nodes" := nodes]> workflowData
    else if defined (get currentWorkflow "nodes")
    then <["nodes" := get currentWorkflow "nodes"]> workflowData
    else workflowData in
  let workflowData :=
    if defined connections then <["connections" := connections]> workflowData
    else if defined (get currentWorkflow "connections")
    then <["connections" := get currentWorkflow "connections"]> workflowData
    else workflowData in
  let workflowData :=
    if defined settings then <["settings" := settings]> workflowData
    else if defined (get currentWorkflow "settings")
    then <["settings" := get currentWorkflow "settings"]> workflowData
    else workflowData in
  let workflowData :=
    if defined staticData then <["staticData" := staticData]> workflowData
    else if defined (get currentWorkflow "staticData")
    then <["staticData" := get currentWorkflow "staticData"]> workflowData
    else workflowData in
  workflowData.

(** Lines 68-74, "Build a summary of changes": [changesArray] after the
    five conditional pushes. *)
Definition changesArray (args currentWorkflow : object)
  : thrown + list string :=
  let name := get args "name" in
  let nodes := get args "nodes" in
  let connections := get args "connections" in
  let settings := get args "settings" in
  let staticData := get args "staticData" in
  let changesArray : list string := [] in
  match
    if defined name && negb (strict_eq name (get currentWorkflow "name"))
    then
      match ToString (get currentWorkflow "name") with
      | None => inl TypeError
      | Some old =>
          match ToString name with
          | None => inl TypeError
          | Some new =>
              inr (push changesArray
                     ("name: " ++ dq ++ old ++ dq ++
                      " â†’ " ++ dq ++ new ++ dq))
          end
      end
    else inr changesArray
  with
  | inl e => inl e
  | inr changesArray =>
      let changesArray :=
        if defined nodes then push changesArray "nodes updated"
        else changesArray in
      let changesArray :=
        if defined connections then push changesArray "connections updated"
        else changesArray in
      let changesArray :=
        if defined settings then push changesArray "settings updated"
        else changesArray in
      let changesArray :=
        if defined staticData then push changesArray "staticData updated"
        else changesArray in
      inr changesArray
  end.

(** Lines 68-79: the summary text, when building the array did not
    throw. *)
Definition changesSummary (args currentWorkflow : object)
  : thrown + string :=
  match changesArray args currentWorkflow with
  | inl e => inl e
  | inr changesArray =>
      inr (if (0 <? length changesArray)%nat
           then "Changes: " ++ join ", " changesArray
           else "No changes were made")
  end.

(** The async arrow function of lines 22-89, which [execute] hands to
    [handleExecution]. *)
Definition execute_fn (args : object) : Async W T :=
  let workflowId := get args "workflowId" in
  let nodes := get args "nodes" in
  let connections := get args "connections" in
  throw_if negb (truthy workflowId)
    then N8nApiError "Missing required parameter: workflowId" ;;
  throw_if truthy nodes && negb (isArray nodes)
    then N8nApiError ("Parameter " ++ dq ++ "nodes" ++ dq ++ " must be an array") ;;
  throw_if truthy connections && negb (String.eqb (typeof connections) "object")
    then N8nApiError
           ("Parameter " ++ dq ++ "connections" ++ dq ++ " must be an object") ;;
  currentWorkflow <-
    await (GetWorkflow workflowId) (getWorkflow apiService workflowId) ;;
  let workflowData := workflowData args currentWorkflow in
  updatedWorkflow <-
    await (UpdateWorkflow workflowId workflowData)
          (updateWorkflow apiService workflowId workflowData) ;;
  changesSummary <- lift (changesSummary args currentWorkflow) ;;
  ret (formatSuccess
         (<["active" := get updatedWorkflow "active"]>
            (<["name" := get updatedWorkflow "name"]>
               (<["id" := get updatedWorkflow "id"]> ∅)))
         ("Workflow updated successfully. " ++ changesSummary)).

(** [UpdateWorkflowHandler.execute], lines 21-90. *)
Definition execute (args : object) : Async W T :=
  handleExecution execute_fn args.

End UpdateWorkflowHandler.

(** ** What the statements below are written with *)

(** A request passes validation when none of the three guards of lines
    26-38 fires. *)
Definition passes_validation (args : object) : Prop :=
  truthy (get args "workflowId") = true ∧
  truthy (get args "nodes") && negb (isArray (get args "nodes")) = false ∧
  truthy (get args "connections") &&
    negb (String.eqb (typeof (get args "connections")) "object") = false.

(** The three messages a validation failure can carry. *)
Definition validation_messages : list string :=
  [ "Missing required parameter: workflowId";
    "Parameter " ++ dq ++ "nodes" ++ dq ++ " must be an array";
    "Parameter " ++ dq ++ "connections" ++ dq ++ " must be an object" ].

(** One of the five assignments of lines 45-59, on the payload built so
    far. *)
Definition assign_field (f : string) (args currentWorkflow m : object) : object :=
  if defined (get args f) then <[f := get args f]> m
  else if defined (get currentWorkflow f)
  then <[f := get currentWorkflow f]> m
  else m.

(** The entry line 70 pushes for a changed name, when its template
    literal can be evaluated. *)
Definition name_entry (args currentWorkflow : object) : option string :=
  match ToString (get currentWorkflow "name"), ToString (get args "name") with
  | Some old, Some new =>
      Some ("name: " ++ dq ++ old ++ dq ++ " â†’ " ++ dq ++ new ++ dq)
  | _, _ => None
  end.

(** The test of line 69: a name is supplied and [!==] the fetched one. *)
Definition name_changed (args currentWorkflow : object) : bool :=
  defined (get args "name") &&
    negb (strict_eq (get args "name") (get currentWorkflow "name")).

(** The name change, if the request makes one, can be printed. *)
Definition name_change_prints (args currentWorkflow : object) : Prop :=
  name_changed args currentWorkflow = true →
  is_Some (name_entry args currentWorkflow).

(** The entries lines 71-74 push, in their order. *)
Definition updated_entries (args : object) : list string :=
  (if defined (get args "nodes") then ["nodes updated"] else []) ++
  (if defined (get args "connections") then ["connections updated"] else []) ++
  (if defined (get args "settings") then ["settings updated"] else []) ++
  (if defined (get args "staticData") then ["staticData updated"] else []).

(** The data object of lines 82-86. *)
Definition success_data (updatedWorkflow : object) : object :=
  <["active" := get updatedWorkflow "active"]>
    (<["name" := get updatedWorkflow "name"]>
       (<["id" := get updatedWorkflow "id"]> ∅)).

(** ** A stand-in for the remote side

    An n8n instance that keeps its workflows by id in memory, and a base
    class that runs the function it is given and pairs the data with the
    message.  The concrete runs below use it. *)
Module Mock.

Definition not_found : thrown := N8nApiError "Workflow not found".

Definition get_workflow (id : value) (s : gmap string object)
  : (thrown + object) * gmap string object :=
  match id with
  | VString k =>
      match s !! k with
      | Some wf => (inr wf, s)
      | None => (inl not_found, s)
      end
  | _ => (inl not_found, s)
  end.

Definition update_workflow (id : value) (data : object) (s : gmap string object)
  : (thrown + object) * gmap string object :=
  match id with
  | VString k =>
      match s !! k with
      | Some wf => let wf' := data ∪ wf in (inr wf', <[k := wf']> s)
      | None => (inl not_found, s)
      end
  | _ => (inl not_found, s)
  end.

Definition api : ApiService (gmap string object) :=
  {| getWorkflow := get_workflow; updateWorkflow := update_workflow |}.

Definition handler : BaseWorkflowToolHandler (gmap string object) (object * string) :=
  {| apiService := api;
     formatSuccess := pair;
     handleExecution := fun fn args => fn args |}.

(** One stored workflow, ["1"], named ["A"]. *)
Definition stored : object :=
  <["id" := VString "1"]>
    (<["name" := VString "A"]>
       (<["active" := VBool false]>
          (<["nodes" := VArray 0 []]>
             (<["connections" := VObject 1 ∅]> ∅)))).

Definition start : world (gmap string object) :=
  World (<["1" := stored]> ∅) [].

(** Requests. *)
Definition request (rest : object) : object :=
  <["workflowId" := VString "1"]> rest.

Definition rename : object := request {["name" := VString "B"]}.
Definition same_name : object := request {["name" := VString "A"]}.
Definition null_nodes : object := request {["nodes" := VNull]}.
Definition empty_nodes : object := request {["nodes" := VString ""]}.
Definition text_nodes : object := request {["nodes" := VString "n1"]}.
Definition array_connections : object :=
  request {["connections" := VArray 2 [VString "n1"]]}.
Definition empty_connections : object :=
  request {["connections" := VString ""]}.
Definition number_connections : object :=
  request {["connections" := VNumber 1]}.
Definition no_id : object := {["name" := VString "B"]}.
Definition empty_id : object := <["workflowId" := VString ""]> no_id.
Definition unknown_id : object := <["workflowId" := VString "2"]> no_id.

(** A remote side that serves workflows but refuses every update. *)
Definition read_only : thrown :=
  Rejection (VString "read only").

Definition read_only_api : ApiService (gmap string object) :=
  {| getWorkflow := get_workflow;
     updateWorkflow := λ _ _ s, (inl read_only, s) |}.

Definition read_only_handler
  : BaseWorkflowToolHandler (gmap string object) (object * string) :=
  {| apiService := read_only_api;
     formatSuccess := pair;
     handleExecution := fun fn args => fn args |}.

(** A request with every field, and one with a key the tool does not
    declare. *)
Definition full : object :=
  request
    (<["name" := VString "B"]>
       (<["nodes" := VArray 3 []]>
          (<["connections" := VObject 4 ∅]>
             (<["settings" := VObject 5 ∅]>
                {["staticData" := VNull]})))).

Definition rename_verbose : object := <["verbose" := VBool true]> rename.

(** A name that is an object with a [toString] key of its own, alone and
    next to [null] nodes. *)
Definition odd_name : value :=
  VObject 9 {["toString" := VString "x"]}.

Definition rename_odd : object := request {["name" := odd_name]}.

Definition null_nodes_odd : object :=
  request (<["nodes" := VNull]> {["name" := odd_name]}).

End Mock.

(** ** The tool definition

    [getUpdateWorkflowToolDefinition], lines 98-136: the name, the
    description and the input schema the dispatch framework publishes for
    the tool. *)
Module Tool.

(** A JSON Schema object with the keywords the definition uses; a keyword
    that is not written is [None] or the empty list. *)
#[warnings="-register-all"]
Inductive JsonSchema : Type :=
| Schema (type : string) (description : option string)
    (properties : list (string * JsonSchema)) (items : option JsonSchema)
    (required : list string).

Definition properties (s : JsonSchema) : list (string * JsonSchema) :=
  match s with Schema _ _ properties _ _ => properties end.

Definition required (s : JsonSchema) : list string :=
  match s with Schema _ _ _ _ required => required end.

Record ToolDefinition : Type := {
  name : string;
  description : string;
  inputSchema : JsonSchema
}.

(** The JSON Schema keyword [type] on a value; [undefined] is no JSON
    value and has no type. *)
Definition has_type (type : string) (v : value) : bool :=
  match v with
  | VUndefined => false
  | VNull => String.eqb type "null"
  | VBool _ => String.eqb type "boolean"
  | VNumber _ => String.eqb type "number"
  | VString _ => String.eqb type "string"
  | VArray _ _ => String.eqb type "array"
  | VObject _ _ => String.eqb type "object"
  end.

(** Whether a value conforms to a schema: [type] on the value, [required]
    and [properties] on an object, [items] on an array. *)
Fixpoint conforms (s : JsonSchema) (v : value) : bool :=
  match s with
  | Schema type _ properties items required =>
      has_type type v &&
      match v with
      | VObject _ props =>
          forallb (λ r, bool_decide (is_Some (props !! r))) required &&
          forallb (λ p, match props !! p.1 with
                        | Some x => conforms p.2 x
                        | None => true
                        end) properties
      | VArray _ elems =>
          match items with
          | Some element => forallb (conforms element) elems
          | None => true
          end
      | _ => true
      end
  end.

End Tool.

Definition getUpdateWorkflowToolDefinition : Tool.ToolDefinition :=
  {| Tool.name := "update_workflow";
     Tool.description := "Update an existing workflow in n8n";
     Tool.inputSchema :=
       Tool.Schema "object" None
         [ ("workflowId",
            Tool.Schema "string" (Some "ID of the workflow to update")
              [] None []);
           ("name",
            Tool.Schema "string" (Some "New name for the workflow")
              [] None []);
           ("nodes",
            Tool.Schema "array"
              (Some "Updated array of node objects that define the workflow")
              [] (Some (Tool.Schema "object" None [] None [])) []);
           ("connections",
            Tool.Schema "object"
              (Some "Updated connection mappings between nodes")
              [] None []);
           ("settings",
            Tool.Schema "object" (Some "Updated settings for the workflow")
              [] None []);
           ("staticData",
            Tool.Schema "object" (Some "Updated static data for the workflow")
              [] None []) ]
         None
         ["workflowId"] |}.

(** The argument names the tool definition declares. *)
Definition declared_arguments : list string :=
  (Tool.properties (Tool.inputSchema getUpdateWorkflowToolDefinition)).*1.

(** The request has no change to report against the fetched workflow: no
    name that [!==] the fetched one, and none of the other four fields. *)
Definition nothing_to_report (args currentWorkflow : object) : Prop :=
  (get args "name" = VUndefined ∨
   strict_eq (get args "name") (get currentWorkflow "name") = true) ∧
  (∀ f, f ∈ ["nodes"; "connections"; "settings"; "staticData"] →
        get args f = VUndefined).

(** The full list of entries [changesArray] can hold, in the order of the
    pushes of lines 69-74. *)
Definition all_entries (args currentWorkflow : object) : list string :=
  option_list (name_entry args currentWorkflow) ++
  [ "nodes updated"; "connections updated"; "settings updated";
    "staticData updated" ].

(** * Properties *)

(** ** Values *)

Example Number_toString_examples :
  map Number_toString
    [0.5; 1 / 10; 1 / 3; -1.5; 123456789; 1e21; 1 / 1e7; 0 / 0; -0]%float =
  ["0.5"; "0.1"; "0.3333333333333333"; "-1.5"; "123456789"; "1e+21"; "1e-7";
   "NaN"; "0"].
Proof. vm_compute. reflexivity. Qed.

Example ToString_examples :
  map ToString
    [VUndefined; VNull; VBool true; VString "A"; VObject 0 ∅;
     VObject 0 {["valueOf" := VNumber 1]};
     VArray 1 [VNumber 1; VNull; VString "a"; VArray 2 [VBool false]];
     VObject 0 {["toString" := VString "x"]};
     VArray 1 [VString "a"; VObject 0 {["toString" := VNull]}]] =
  [Some "undefined"; Some "null"; Some "true"; Some "A";
   Some "[object Object]"; Some "[object Object]"; Some "1,,a,false";
   None; None].
Proof. vm_compute. reflexivity. Qed.

Example truthy_examples :
  map truthy
    [VUndefined; VNull; VBool false; VNumber 0; VNumber (-0); VNumber (0 / 0);
     VString ""; VString "0"; VNumber 1; VArray 0 []; VObject 1 ∅] =
  [false; false; false; false; false; false; false; true; true; true; true].
Proof. vm_compute. reflexivity. Qed.

Example strict_eq_examples :
  map (λ p, strict_eq p.1 p.2)
    [(VString "A", VString "A"); (VNumber (0 / 0), VNumber (0 / 0));
     (VNumber 0, VNumber (-0)); (VNull, VUndefined);
     (VArray 0 [], VArray 1 []); (VObject 3 ∅, VObject 3 ∅)] =
  [true; false; true; false; false; true].
Proof. vm_compute. reflexivity. Qed.

Lemma defined_true (v : value) : defined v = true ↔ v ≠ VUndefined.
Proof. destruct v; cbn; split; congruence. Qed.

Lemma defined_false (v : value) : defined v = false ↔ v = VUndefined.
Proof. destruct v; cbn; split; congruence. Qed.

Lemma get_lookup (o : object) (k : string) (v : value) :
  o !! k = Some v → get o k = v.
Proof. unfold get. by intros ->. Qed.

Lemma get_delete_ne (o : object) (f k : string) :
  f ≠ k → get (delete f o) k = get o k.
Proof. intros Hne. unfold get. by rewrite lookup_delete_ne. Qed.

Lemma updatable_in_fields (f : string) :
  f ∈ ["nodes"; "connections"; "settings"; "staticData"] → f ∈ fields.
Proof. intros Hf. unfold fields. rewrite elem_of_cons. by right. Qed.

Lemma get_rest_undefined (args : object) :
  (∀ f, f ∈ ["nodes"; "connections"; "settings"; "staticData"] →
        get args f = VUndefined) →
  get args "nodes" = VUndefined ∧ get args "connections" = VUndefined ∧
  get args "settings" = VUndefined ∧ get args "staticData" = VUndefined.
Proof. intros Hrest. repeat split; apply Hrest; set_solver. Qed.

(** ** The payload *)

Lemma workflowData_assign (args cur : object) :
  workflowData args cur =
  assign_field "staticData" args cur
    (assign_field "settings" args cur
       (assign_field "connections" args cur
          (assign_field "nodes" args cur
             (assign_field "name" args cur ∅)))).
Proof. reflexivity. Qed.

Lemma lookup_assign_field (f k : string) (args cur m : object) :
  assign_field f args cur m !! k =
  if decide (f = k) then
    if defined (get args f) then Some (get args f)
    else if defined (get cur f) then Some (get cur f)
    else m !! k
  else m !! k.
Proof.
  unfold assign_field.
  destruct (defined (get args f)), (defined (get cur f));
    rewrite ?lookup_insert; by repeat case_decide.
Qed.

Lemma lookup_workflowData_field (args cur : object) (f : string) :
  f ∈ fields →
  workflowData args cur !! f =
  if defined (get args f) then Some (get args f)
  else if defined (get cur f) then Some (get cur f)
  else None.
Proof.
  intros Hf. rewrite workflowData_assign, !lookup_assign_field, lookup_empty.
  unfold fields in Hf. rewrite !elem_of_cons, elem_of_nil in Hf.
  destruct Hf as [->|[->|[->|[->|[->|[]]]]]];
    repeat case_decide; try discriminate; try congruence;
    repeat match goal with |- context [if ?b then _ else _] => destruct b end;
    reflexivity.
Qed.

Lemma lookup_workflowData_other (args cur : object) (k : string) :
  k ∉ fields → workflowData args cur !! k = None.
Proof.
  intros Hk. rewrite workflowData_assign, !lookup_assign_field, lookup_empty.
  unfold fields in Hk. rewrite !not_elem_of_cons in Hk.
  destruct Hk as (? & ? & ? & ? & ? & _).
  repeat case_decide; congruence.
Qed.

(** ** The change summary *)

Lemma changesArray_eq (args cur : object) :
  changesArray args cur =
  if name_changed args cur then
    match name_entry args cur with
    | Some entry => inr (entry :: updated_entries args)
    | None => inl TypeError
    end
  else inr (updated_entries args).
Proof.
  unfold changesArray, name_changed, name_entry, updated_entries, push.
  destruct (_ && _); [destruct (ToString (get cur "name")),
                               (ToString (get args "name"))|];
    try done;
    by destruct (defined (get args "nodes")),
      (defined (get args "connections")), (defined (get args "settings")),
      (defined (get args "staticData")).
Qed.

Lemma name_entry_head (args cur : object) (entry : string) :
  name_entry args cur = Some entry →
  ∃ rest, entry = String "n"%char (String "a"%char rest).
Proof.
  unfold name_entry.
  destruct (ToString (get cur "name")), (ToString (get args "name"));
    intros [= <-]. cbn. eauto.
Qed.

Lemma updated_entries_elem (args : object) (entry : string) :
  entry ∈ updated_entries args ↔
  ∃ f, f ∈ ["nodes"; "connections"; "settings"; "staticData"] ∧
       entry = f ++ " updated" ∧ defined (get args f) = true.
Proof.
  unfold updated_entries. rewrite !elem_of_app. split.
  - intros [Hin|[Hin|[Hin|Hin]]];
      match type of Hin with
      | _ ∈ (if ?b then _ else _) => destruct b eqn:Hb
      end;
      try (by apply elem_of_nil in Hin);
      apply list_elem_of_singleton in Hin as ->.
    + exists "nodes". split; [set_solver|done].
    + exists "connections". split; [set_solver|done].
    + exists "settings". split; [set_solver|done].
    + exists "staticData". split; [set_solver|done].
  - intros (f & Hf & -> & Hd). rewrite !elem_of_cons, elem_of_nil in Hf.
    destruct Hf as [->|[->|[->|[->|[]]]]]; rewrite Hd; cbn;
      rewrite !list_elem_of_singleton; tauto.
Qed.

Lemma updated_entries_field (args : object) (f : string) :
  f ∈ ["nodes"; "connections"; "settings"; "staticData"] →
  (f ++ " updated") ∈ updated_entries args ↔ defined (get args f) = true.
Proof.
  intros Hf. rewrite updated_entries_elem. split.
  - intros (g & Hg & Heq & Hd).
    rewrite !elem_of_cons, elem_of_nil in Hf, Hg.
    destruct Hf as [->|[->|[->|[->|[]]]]];
      destruct Hg as [->|[->|[->|[->|[]]]]]; by try discriminate Heq.
  - intros Hd. by exists f.
Qed.


Lemma updated_entries_none (args : object) :
  (∀ f, f ∈ ["nodes"; "connections"; "settings"; "staticData"] →
        get args f = VUndefined) →
  updated_entries args = [].
Proof.
  intros Hrest. destruct (get_rest_undefined _ Hrest) as (Hn & Hc & Hs & Hd).
  unfold updated_entries. by rewrite Hn, Hc, Hs, Hd.
Qed.

(** What [changesArray] is when it is built, and when it is. *)
Lemma changesArray_built (args cur : object) (changes : list string) :
  changesArray args cur = inr changes ↔
  name_change_prints args cur ∧
  changes =
    ((if name_changed args cur then option_list (name_entry args cur) else [])
     ++ updated_entries args)%list.
Proof.
  rewrite changesArray_eq. unfold name_change_prints. fold (name_changed args cur).
  destruct (name_changed args cur).
  - destruct (name_entry args cur) as [entry|]; cbn.
    + split; [intros [= <-]; split; [eauto|done] | by intros [_ ->]].
    + split; [done|]. intros [Hp _]. by destruct (Hp eq_refl).
  - cbn. split; [intros [= <-]; by split | by intros [_ ->]].
Qed.

Lemma changesArray_thrown (args cur : object) (e : thrown) :
  changesArray args cur = inl e ↔
  e = TypeError ∧ name_changed args cur = true ∧ name_entry args cur = None.
Proof.
  rewrite changesArray_eq.
  destruct (name_changed args cur); [destruct (name_entry args cur)|].
  - split; [done | by intros (_ & _ & ?)].
  - split; [by intros [= <-] | by intros (-> & _)].
  - split; [done | by intros (_ & ? & _)].
Qed.

Lemma changesSummary_built (args cur : object) (changes : list string) :
  changesArray args cur = inr changes →
  changesSummary args cur =
    inr (if decide (changes = []) then "No changes were made"
         else "Changes: " ++ String.concat ", " changes).
Proof.
  intros Hc. unfold changesSummary, join. rewrite Hc. by destruct changes.
Qed.

(** ** Runs of the handler *)

Section Runs.
Context {W T : Type} {base : BaseWorkflowToolHandler W T}.
Implicit Types (args cur upd : object) (w : world W) (s : W) (e : thrown).

Lemma execute_fn_fetch_rejected args w e s :
  passes_validation args →
  getWorkflow apiService (get args "workflowId") (remote w) = (inl e, s) →
  execute_fn args w =
  (inl e, World s (calls w ++ [GetWorkflow (get args "workflowId")])).
Proof.
  intros (Hid & Hnodes & Hconn) Hget.
  unfold execute_fn. rewrite Hid, Hnodes, Hconn. cbn.
  unfold bind, await. by rewrite Hget.
Qed.

Lemma execute_fn_fetched args w cur s :
  passes_validation args →
  getWorkflow apiService (get args "workflowId") (remote w) = (inr cur, s) →
  execute_fn args w =
  let id := get args "workflowId" in
  let log :=
    (calls w ++ [GetWorkflow id; UpdateWorkflow id (workflowData args cur)])%list in
  match updateWorkflow apiService id (workflowData args cur) s with
  | (inl e, s') => (inl e, World s' log)
  | (inr upd, s') =>
      (match changesSummary args cur with
       | inl e => inl e
       | inr summary =>
           inr (formatSuccess (success_data upd)
                  ("Workflow updated successfully. " ++ summary))
       end,
       World s' log)
  end.
Proof.
  intros (Hid & Hnodes & Hconn) Hget.
  unfold execute_fn. rewrite Hid, Hnodes, Hconn. cbn.
  unfold bind, await, lift. rewrite Hget. cbn.
  destruct (updateWorkflow _ _ _ _) as [[e|upd] s']; cbn;
    rewrite <- app_assoc; [done|].
  by destruct (changesSummary args cur).
Qed.

Lemma execute_fn_updated args w cur s upd s' :
  passes_validation args →
  getWorkflow apiService (get args "workflowId") (remote w) = (inr cur, s) →
  updateWorkflow apiService (get args "workflowId") (workflowData args cur) s
    = (inr upd, s') →
  execute_fn args w =
  (match changesSummary args cur with
   | inl e => inl e
   | inr summary =>
       inr (formatSuccess (success_data upd)
              ("Workflow updated successfully. " ++ summary))
   end,
   World s' (calls w ++ [GetWorkflow (get args "workflowId");
                         UpdateWorkflow (get args "workflowId")
                                        (workflowData args cur)])).
Proof.
  intros Hv Hget Hupd. rewrite (execute_fn_fetched _ _ _ _ Hv Hget). cbn.
  by rewrite Hupd.
Qed.

Lemma execute_fn_summarised args w cur s upd s' (changes : list string) :
  passes_validation args →
  getWorkflow apiService (get args "workflowId") (remote w) = (inr cur, s) →
  updateWorkflow apiService (get args "workflowId") (workflowData args cur) s
    = (inr upd, s') →
  changesArray args cur = inr changes →
  execute_fn args w =
  (inr (formatSuccess (success_data upd)
          ("Workflow updated successfully. " ++
           (if decide (changes = []) then "No changes were made"
            else "Changes: " ++ String.concat ", " changes))),
   World s' (calls w ++ [GetWorkflow (get args "workflowId");
                         UpdateWorkflow (get args "workflowId")
                                        (workflowData args cur)])).
Proof.
  intros Hv Hget Hupd Hc. rewrite (execute_fn_updated _ _ _ _ _ _ Hv Hget Hupd).
  by rewrite (changesSummary_built _ _ _ Hc).
Qed.

End Runs.

(** ** The claims *)

Section Claims.
Context {W T : Type} {base : BaseWorkflowToolHandler W T}.
Implicit Types (args cur upd : object) (w : world W) (s : W) (e : thrown).

(** C1: when the request passes validation and the fetch gives the
    current workflow, the payload handed to [updateWorkflow] holds, under
    each of the five fields, the caller's value when the request has one,
    else the fetched workflow's value when it has one, else nothing; it
    holds nothing under any other key; and when the request has none of
    the five fields it is exactly the fetched workflow's present values
    of the five fields. *)
Theorem update_payload_is_request_over_stored args cur w s :
  passes_validation args →
  getWorkflow apiService (get args "workflowId") (remote w) = (inr cur, s) →
  ∃ payload : object,
    calls (execute_fn args w).2 =
      (calls w ++ [GetWorkflow (get args "workflowId");
                   UpdateWorkflow (get args "workflowId") payload])%list ∧
    (∀ f, f ∈ fields →
       payload !! f =
       if defined (get args f) then Some (get args f)
       else if defined (get cur f) then Some (get cur f)
       else None) ∧
    (∀ k, k ∉ fields → payload !! k = None) ∧
    ((∀ f, f ∈ fields → get args f = VUndefined) →
     payload = filter (λ kv, kv.1 ∈ fields ∧ defined kv.2 = true) cur).
Proof.
  intros Hv Hget. exists (workflowData args cur). split; [|split; [|split]].
  - rewrite (execute_fn_fetched _ _ _ _ Hv Hget). cbn.
    by destruct (updateWorkflow _ _ _ _) as [[?|?] ?].
  - intros f Hf. by apply lookup_workflowData_field.
  - intros k Hk. by apply lookup_workflowData_other.
  - intros Hnone. apply map_eq. intros k.
    rewrite map_lookup_filter.
    destruct (decide (k ∈ fields)) as [Hk|Hk].
    + rewrite lookup_workflowData_field, (Hnone k Hk) by done. cbn.
      unfold get. destruct (cur !! k) as [v|]; cbn; [|done].
      destruct (defined v) eqn:Hd; cbn.
      * rewrite option_guard_True; [done|]. by split.
      * rewrite option_guard_False; [done|]. intros [_ ?]. congruence.
    + rewrite lookup_workflowData_other by done.
      destruct (cur !! k) as [v|]; cbn; [|done].
      rewrite option_guard_False; [done|]. by intros [? _].
Qed.


(** C3: a request without [workflowId] is rejected with the
    missing-parameter [N8nApiError], and the world is left as it was: no
    [getWorkflow], no [updateWorkflow]. *)
Theorem missing_workflowId_fails_before_any_call args w :
  args !! "workflowId" = None →
  execute_fn args w =
    (inl (N8nApiError "Missing required parameter: workflowId"), w) ∧
  calls (execute_fn args w).2 = calls w.
Proof.
  intros Hid. unfold execute_fn, get. rewrite Hid. by cbn.
Qed.

(** C6: when the request passes validation and [getWorkflow] rejects, the
    rejection is what the operation fails with, as it is; [getWorkflow] was
    called once and [updateWorkflow] not at all. *)
Theorem fetch_failure_propagates_without_update args w e s :
  passes_validation args →
  getWorkflow apiService (get args "workflowId") (remote w) = (inl e, s) →
  (execute_fn args w).1 = inl e ∧
  calls (execute_fn args w).2 =
    (calls w ++ [GetWorkflow (get args "workflowId")])%list ∧
  remote (execute_fn args w).2 = s.
Proof.
  intros Hv Hget. by rewrite (execute_fn_fetch_rejected _ _ _ _ Hv Hget).
Qed.

(** C7, as amended: when validation passes, both remote calls succeed and
    the name change, if the request makes one, can be printed, the
    operation returns [formatSuccess] of an object with exactly the keys
    [id], [name] and [active], read from the updated workflow, and of the
    text "Workflow updated successfully. " followed by the change
    summary. *)
Theorem success_result_is_id_name_active_and_summary args cur upd w s s' :
  passes_validation args →
  getWorkflow apiService (get args "workflowId") (remote w) = (inr cur, s) →
  updateWorkflow apiService (get args "workflowId") (workflowData args cur) s
    = (inr upd, s') →
  name_change_prints args cur →
  ∃ (data : object) (summary : string) (changes : list string),
    changesArray args cur = inr changes ∧
    summary = (if decide (changes = []) then "No changes were made"
               else "Changes: " ++ String.concat ", " changes) ∧
    (execute_fn args w).1 =
      inr (formatSuccess data ("Workflow updated successfully. " ++ summary)) ∧
    dom data = ({["id"; "name"; "active"]} : gset string) ∧
    data !! "id" = Some (get upd "id") ∧
    data !! "name" = Some (get upd "name") ∧
    data !! "active" = Some (get upd "active").
Proof.
  intros Hv Hget Hupd Hprints.
  pose proof (proj2 (changesArray_built args cur _) (conj Hprints eq_refl))
    as Hc.
  exists (success_data upd). eexists. eexists.
  split; [exact Hc|]. split; [reflexivity|].
  rewrite (execute_fn_summarised _ _ _ _ _ _ _ Hv Hget Hupd Hc).
  unfold success_data. split; [done|]. split.
  - rewrite !dom_insert_L, dom_empty_L. set_solver.
  - by simplify_map_eq.
Qed.

(** C8: a request whose [workflowId] is there but falsy (the empty string,
    [null], [false], [0], [NaN]) is rejected with the same
    missing-parameter error, before any remote call. *)
Theorem falsy_workflowId_fails_as_missing args w (v : value) :
  args !! "workflowId" = Some v →
  truthy v = false →
  execute_fn args w =
    (inl (N8nApiError "Missing required parameter: workflowId"), w) ∧
  calls (execute_fn args w).2 = calls w.
Proof.
  intros Hid Hv. unfold execute_fn, get. rewrite Hid. cbn. by rewrite Hv.
Qed.

(** C4, as amended: a request whose [nodes] is truthy and not an array is
    rejected with a validation [N8nApiError] and the world is left as it
    was; the error is the one about [nodes] whenever [workflowId] is
    truthy. *)
Theorem truthy_non_array_nodes_fail_validation args w :
  truthy (get args "nodes") = true →
  isArray (get args "nodes") = false →
  ∃ message,
    execute_fn args w = (inl (N8nApiError message), w) ∧
    message ∈ validation_messages ∧
    (truthy (get args "workflowId") = true →
     message = "Parameter " ++ dq ++ "nodes" ++ dq ++ " must be an array").
Proof.
  intros Ht Ha. unfold execute_fn. rewrite Ht, Ha.
  destruct (truthy (get args "workflowId")); cbn [negb andb];
    eexists; (split; [reflexivity|]); (split; [|done]);
    unfold validation_messages; set_solver.
Qed.

(** C5, as amended: a request whose [connections] is truthy and whose
    [typeof] is not "object" (a non-empty string, a number other than 0 and
    NaN, or [true]) is rejected with a validation [N8nApiError] and the
    world is left as it was; the error is the one about [connections]
    whenever the two earlier guards do not fire. *)
Theorem truthy_non_object_connections_fail_validation args w :
  truthy (get args "connections") = true →
  String.eqb (typeof (get args "connections")) "object" = false →
  ∃ message,
    execute_fn args w = (inl (N8nApiError message), w) ∧
    message ∈ validation_messages ∧
    (truthy (get args "workflowId") = true →
     truthy (get args "nodes") && negb (isArray (get args "nodes")) = false →
     message =
       "Parameter " ++ dq ++ "connections" ++ dq ++ " must be an object").
Proof.
  intros Ht Ho.
  unfold execute_fn. rewrite Ht, Ho.
  destruct (truthy (get args "workflowId")),
    (truthy (get args "nodes") && negb (isArray (get args "nodes")));
    cbn [negb andb];
    eexists; (split; [reflexivity|]); (split; [|done]);
    unfold validation_messages; set_solver.
Qed.

(** C9, as amended: a request that gives [null] for one of [nodes],
    [connections], [settings], [staticData], and is otherwise valid, passes
    validation, and the payload handed to [updateWorkflow] holds [null]
    under that field, whatever the stored workflow has there; and when the
    name change, if the request makes one, can be printed, the change
    summary has the field's "updated" entry. *)
Theorem null_field_is_sent_and_reported args cur upd w s s' (f : string) :
  f ∈ ["nodes"; "connections"; "settings"; "staticData"] →
  args !! f = Some VNull →
  passes_validation (delete f args) →
  getWorkflow apiService (get args "workflowId") (remote w) = (inr cur, s) →
  updateWorkflow apiService (get args "workflowId") (workflowData args cur) s
    = (inr upd, s') →
  passes_validation args ∧
  (∃ payload : object,
     calls (execute_fn args w).2 =
       (calls w ++ [GetWorkflow (get args "workflowId");
                    UpdateWorkflow (get args "workflowId") payload])%list ∧
     payload !! f = Some VNull) ∧
  (name_change_prints args cur →
   ∃ changes : list string,
     changesArray args cur = inr changes ∧
     (f ++ " updated") ∈ changes ∧
     (execute_fn args w).1 =
       inr (formatSuccess (success_data upd)
              ("Workflow updated successfully. Changes: " ++
               String.concat ", " changes))).
Proof.
  intros Hf Hnull Hrest Hget Hupd.
  pose proof (get_lookup _ _ _ Hnull) as Hgf.
  assert (Hv : passes_validation args).
  { destruct Hrest as (Hid & Hnodes & Hconn).
    rewrite !elem_of_cons, elem_of_nil in Hf.
    unfold passes_validation.
    destruct Hf as [->|[->|[->|[->|[]]]]];
      rewrite get_delete_ne in Hid by discriminate;
      rewrite ?get_delete_ne in Hnodes by discriminate;
      rewrite ?get_delete_ne in Hconn by discriminate;
      rewrite ?Hgf; by cbn. }
  split; [done|]. split.
  - rewrite (execute_fn_updated _ _ _ _ _ _ Hv Hget Hupd). cbn [snd calls].
    eexists. split; [reflexivity|].
    rewrite lookup_workflowData_field by by apply updatable_in_fields.
    by rewrite Hgf.
  - intros Hprints.
    pose proof (proj2 (changesArray_built args cur _) (conj Hprints eq_refl))
      as Hc.
    eexists. split; [exact Hc|].
    assert (Hin : (f ++ " updated") ∈ updated_entries args).
    { apply updated_entries_field; [done|]. by rewrite Hgf. }
    split; [apply elem_of_app; by right|].
    rewrite (execute_fn_summarised _ _ _ _ _ _ _ Hv Hget Hupd Hc). cbn.
    case_decide as Hnil; [|done].
    apply app_eq_nil in Hnil as [_ Hnil]. rewrite Hnil in Hin.
    by apply elem_of_nil in Hin.
Qed.

(** C10: a request that supplies, of the five fields, only a name that
    [===] the fetched name gets "No changes were made", although
    [updateWorkflow] was called with that name in the payload. *)
Theorem same_name_is_sent_but_not_reported args cur upd w s s' :
  truthy (get args "workflowId") = true →
  get args "name" ≠ VUndefined →
  (∀ f, f ∈ ["nodes"; "connections"; "settings"; "staticData"] →
        get args f = VUndefined) →
  strict_eq (get args "name") (get cur "name") = true →
  getWorkflow apiService (get args "workflowId") (remote w) = (inr cur, s) →
  updateWorkflow apiService (get args "workflowId") (workflowData args cur) s
    = (inr upd, s') →
  (execute_fn args w).1 =
    inr (formatSuccess (success_data upd)
           "Workflow updated successfully. No changes were made") ∧
  ∃ payload : object,
    calls (execute_fn args w).2 =
      (calls w ++ [GetWorkflow (get args "workflowId");
                   UpdateWorkflow (get args "workflowId") payload])%list ∧
    payload !! "name" = Some (get args "name").
Proof.
  intros Hid Hname Hrest Heq Hget Hupd.
  destruct (get_rest_undefined _ Hrest) as (Hn & Hc & Hs & Hd).
  assert (Hv : passes_validation args).
  { unfold passes_validation. by rewrite Hid, Hn, Hc. }
  assert (Hchanges : changesArray args cur = inr []).
  { rewrite changesArray_eq. unfold name_changed. rewrite Heq, andb_false_r.
    by rewrite (updated_entries_none _ Hrest). }
  rewrite (execute_fn_summarised _ _ _ _ _ _ _ Hv Hget Hupd Hchanges).
  cbn [fst snd calls].
  split; [done|].
  eexists. split; [reflexivity|].
  rewrite lookup_workflowData_field by (unfold fields; set_solver).
  apply defined_true in Hname. by rewrite Hname.
Qed.

End Claims.

(** ** Concrete runs against the stand-in *)

Section MockRuns.
Import Mock.
#[local] Existing Instance handler.

(** Evaluates a run of the stand-in. *)
Local Ltac run := vm_compute; reflexivity.

(** Renaming workflow "1" from "A" to "B": the payload takes the name from
    the request and the nodes from the stored workflow, and has no
    settings. *)
Lemma rename_payload :
  passes_validation rename ∧
  ∃ payload : object,
    calls (execute_fn rename start).2 =
      [GetWorkflow (VString "1"); UpdateWorkflow (VString "1") payload] ∧
    payload !! "name" = Some (VString "B") ∧
    payload !! "nodes" = Some (VArray 0 []) ∧
    payload !! "settings" = None.
Proof.
  assert (Hv : passes_validation rename) by (repeat split; run).
  split; [exact Hv|].
  destruct (update_payload_is_request_over_stored (base := handler)
              rename stored start (remote start) Hv ltac:(run))
    as (payload & Hcalls & Hfields & _).
  exists payload. split; [exact Hcalls|].
  rewrite !Hfields by (unfold fields; set_solver).
  repeat split; reflexivity.
Defined.


Lemma no_id_rejected :
  execute_fn no_id start =
    (inl (N8nApiError "Missing required parameter: workflowId"), start).
Proof.
  exact (proj1 (missing_workflowId_fails_before_any_call (base := handler) no_id start ltac:(run))).
Defined.

Lemma empty_id_rejected :
  execute_fn empty_id start =
    (inl (N8nApiError "Missing required parameter: workflowId"), start).
Proof.
  exact (proj1 (falsy_workflowId_fails_as_missing (base := handler)
                  empty_id start (VString "") ltac:(run) ltac:(run))).
Defined.

Lemma text_nodes_rejected :
  ∃ message,
    execute_fn text_nodes start = (inl (N8nApiError message), start) ∧
    message = "Parameter " ++ dq ++ "nodes" ++ dq ++ " must be an array".
Proof.
  destruct (truthy_non_array_nodes_fail_validation (base := handler)
              text_nodes start ltac:(run) ltac:(run)) as (message & Hrun & _ & Hmsg).
  exists message. split; [exact Hrun|]. apply Hmsg. reflexivity.
Defined.

Lemma number_connections_rejected :
  ∃ message,
    execute_fn number_connections start = (inl (N8nApiError message), start) ∧
    message =
      "Parameter " ++ dq ++ "connections" ++ dq ++ " must be an object".
Proof.
  destruct (truthy_non_object_connections_fail_validation (base := handler)
              number_connections start ltac:(run) ltac:(run))
    as (message & Hrun & _ & Hmsg).
  exists message. split; [exact Hrun|]. apply Hmsg; reflexivity.
Defined.

Lemma unknown_id_rejection_propagates :
  (execute_fn unknown_id start).1 = inl not_found ∧
  calls (execute_fn unknown_id start).2 = [GetWorkflow (VString "2")].
Proof.
  destruct (fetch_failure_propagates_without_update (base := handler)
              unknown_id start not_found (remote start)
              ltac:(repeat split; run) ltac:(run)) as (Hres & Hcalls & _).
  split; [exact Hres | exact Hcalls].
Defined.

Lemma rename_result :
  ∃ (data : object) (summary : string),
    summary = "Changes: name: " ++ dq ++ "A" ++ dq ++ " â†’ " ++
              dq ++ "B" ++ dq ∧
    (execute_fn rename start).1 =
      inr (data, "Workflow updated successfully. " ++ summary) ∧
    data !! "id" = Some (VString "1") ∧
    data !! "name" = Some (VString "B") ∧
    data !! "active" = Some (VBool false).
Proof.
  destruct (success_result_is_id_name_active_and_summary (base := handler)
              rename stored (workflowData rename stored ∪ stored)
              start (remote start)
              (<["1" := workflowData rename stored ∪ stored]> (remote start))
              ltac:(repeat split; run) ltac:(run) ltac:(run)
              ltac:(intros _; eexists; run))
    as (data & summary & changes & Hchanges & Hsum & Hres & _
        & Hid & Hname & Hactive).
  exists data, summary. split; [|split; [exact Hres|]].
  { rewrite Hsum. vm_compute in Hchanges. by injection Hchanges as <-. }
  rewrite Hid, Hname, Hactive. repeat split; reflexivity.
Defined.

Lemma null_nodes_sent_and_reported :
  passes_validation null_nodes ∧
  (∃ changes : list string,
     changesArray null_nodes stored = inr changes ∧
     "nodes updated" ∈ changes) ∧
  ∃ payload : object,
    calls (execute_fn null_nodes start).2 =
      [GetWorkflow (VString "1"); UpdateWorkflow (VString "1") payload] ∧
    payload !! "nodes" = Some VNull.
Proof.
  destruct (null_field_is_sent_and_reported (base := handler)
              null_nodes stored (workflowData null_nodes stored ∪ stored)
              start (remote start)
              (<["1" := workflowData null_nodes stored ∪ stored]> (remote start))
              "nodes" ltac:(apply elem_of_cons; by left) ltac:(run)
              ltac:(repeat split; run) ltac:(run) ltac:(run))
    as (Hv & Hpayload & Hsummary).
  split; [exact Hv|]. split; [|exact Hpayload].
  destruct Hsummary as (changes & Hchanges & Hentry & _).
  { intros Hchanged. vm_compute in Hchanged. discriminate Hchanged. }
  by exists changes.
Defined.

Lemma same_name_no_changes :
  (execute_fn same_name start).1 =
    inr (success_data (workflowData same_name stored ∪ stored),
         "Workflow updated successfully. No changes were made") ∧
  ∃ payload : object,
    calls (execute_fn same_name start).2 =
      [GetWorkflow (VString "1"); UpdateWorkflow (VString "1") payload] ∧
    payload !! "name" = Some (VString "A").
Proof.
  refine (same_name_is_sent_but_not_reported (base := handler)
            same_name stored (workflowData same_name stored ∪ stored)
            start (remote start)
            (<["1" := workflowData same_name stored ∪ stored]> (remote start))
            ltac:(run) _ _ ltac:(run) ltac:(run) ltac:(run)).
  - discriminate.
  - intros f Hf. rewrite !elem_of_cons, elem_of_nil in Hf.
    destruct Hf as [->|[->|[->|[->|[]]]]]; reflexivity.
Defined.

(** [null] and the empty string under [nodes] are there and are not
    arrays, yet the request goes through: both remote calls are made, with
    the value in the payload, and the operation succeeds. *)
Lemma null_and_empty_nodes_are_not_rejected :
  (get null_nodes "nodes" = VNull ∧
   isArray (get null_nodes "nodes") = false ∧
   execute_fn null_nodes start =
     (inr ({["id" := VString "1"; "name" := VString "A";
             "active" := VBool false]},
           "Workflow updated successfully. Changes: nodes updated"),
      World {["1" := <["nodes" := VNull]> stored]}
            [GetWorkflow (VString "1");
             UpdateWorkflow (VString "1")
               {["name" := VString "A"; "nodes" := VNull;
                 "connections" := VObject 1 ∅]}])) ∧
  (get empty_nodes "nodes" = VString "" ∧
   isArray (get empty_nodes "nodes") = false ∧
   execute_fn empty_nodes start =
     (inr ({["id" := VString "1"; "name" := VString "A";
             "active" := VBool false]},
           "Workflow updated successfully. Changes: nodes updated"),
      World {["1" := <["nodes" := VString ""]> stored]}
            [GetWorkflow (VString "1");
             UpdateWorkflow (VString "1")
               {["name" := VString "A"; "nodes" := VString "";
                 "connections" := VObject 1 ∅]}])).
Proof. repeat split; vm_compute; reflexivity. Qed.

(** An array and the empty string under [connections] are there and are
    not key-value mappings, yet the request goes through: the array's
    [typeof] is "object", and the empty string is falsy. *)
Lemma array_and_empty_connections_are_not_rejected :
  (get array_connections "connections" = VArray 2 [VString "n1"] ∧
   typeof (get array_connections "connections") = "object" ∧
   execute_fn array_connections start =
     (inr ({["id" := VString "1"; "name" := VString "A";
             "active" := VBool false]},
           "Workflow updated successfully. Changes: connections updated"),
      World {["1" := <["connections" := VArray 2 [VString "n1"]]> stored]}
            [GetWorkflow (VString "1");
             UpdateWorkflow (VString "1")
               {["name" := VString "A"; "nodes" := VArray 0 [];
                 "connections" := VArray 2 [VString "n1"]]}])) ∧
  (get empty_connections "connections" = VString "" ∧
   truthy (get empty_connections "connections") = false ∧
   execute_fn empty_connections start =
     (inr ({["id" := VString "1"; "name" := VString "A";
             "active" := VBool false]},
           "Workflow updated successfully. Changes: connections updated"),
      World {["1" := <["connections" := VString ""]> stored]}
            [GetWorkflow (VString "1");
             UpdateWorkflow (VString "1")
               {["name" := VString "A"; "nodes" := VArray 0 [];
                 "connections" := VString ""]}])).
Proof. repeat split; vm_compute; reflexivity. Qed.


(** With that name both remote calls succeed, and the operation returns
    no success result: it rejects with the TypeError. *)
Lemma unprintable_name_gets_no_success_result :
  getWorkflow apiService (get rename_odd "workflowId") (remote start) =
    (inr stored, remote start) ∧
  updateWorkflow apiService (get rename_odd "workflowId")
    (workflowData rename_odd stored) (remote start) =
    (inr (<["name" := odd_name]> stored),
     {["1" := <["name" := odd_name]> stored]}) ∧
  (execute_fn rename_odd start).1 = inl TypeError.
Proof. repeat split; vm_compute; reflexivity. Qed.

(** [null] nodes next to that name: the request passes validation and
    [null] goes out in the payload, but the throw of line 70 comes before
    the push of line 71, so no "nodes updated" entry is made and there is
    no summary. *)
Lemma null_nodes_are_not_reported_after_a_throw :
  get null_nodes_odd "nodes" = VNull ∧
  passes_validation null_nodes_odd ∧
  changesArray null_nodes_odd stored = inl TypeError ∧
  execute_fn null_nodes_odd start =
    (inl TypeError,
     World {["1" := <["name" := odd_name]> (<["nodes" := VNull]> stored)]}
           [GetWorkflow (VString "1");
            UpdateWorkflow (VString "1")
              {["name" := odd_name; "nodes" := VNull;
                "connections" := VObject 1 ∅]}]).
Proof. repeat split; vm_compute; reflexivity. Qed.

End MockRuns.

(** * Further properties of the handler *)

(** ** Helper facts *)

Lemma lookup_workflowData (args cur : object) (k : string) :
  workflowData args cur !! k =
  if decide (k ∈ fields) then
    if defined (get args k) then Some (get args k)
    else if defined (get cur k) then Some (get cur k)
    else None
  else None.
Proof.
  case_decide.
  - by apply lookup_workflowData_field.
  - by apply lookup_workflowData_other.
Qed.

Lemma get_workflowData (args cur : object) (f : string) :
  f ∈ fields →
  get (workflowData args cur) f =
  if defined (get args f) then get args f else get cur f.
Proof.
  intros Hf. unfold get at 1. rewrite lookup_workflowData_field by done.
  destruct (defined (get args f)); [done|].
  destruct (defined (get cur f)) eqn:Hd; [done|].
  apply defined_false in Hd. by rewrite Hd.
Qed.

Lemma passes_validation_cases (args : object) :
  passes_validation args ∨
  ¬ passes_validation args ∧
  ∃ message, message ∈ validation_messages ∧
    ∀ (W T : Type) (base : BaseWorkflowToolHandler W T) (w : world W),
      execute_fn args w = (inl (N8nApiError message), w).
Proof.
  unfold passes_validation, execute_fn, validation_messages.
  destruct (truthy (get args "workflowId")); cbn [negb].
  - destruct (truthy (get args "nodes") && negb (isArray (get args "nodes"))).
    + right. split; [by intros (_ & ? & _)|].
      eexists. split; [|by intros]. set_solver.
    + destruct (truthy (get args "connections") && _).
      * right. split; [by intros (_ & _ & ?)|].
        eexists. split; [|by intros]. set_solver.
      * by left.
  - right. split; [by intros (? & _)|].
    eexists. split; [|by intros]. set_solver.
Qed.

Lemma all_entries_NoDup (args cur : object) : NoDup (all_entries args cur).
Proof.
  assert (Hfour : NoDup ["nodes updated"; "connections updated";
                         "settings updated"; "staticData updated"]).
  { repeat (apply NoDup_cons; split;
            [intros Hin;
             repeat (apply elem_of_cons in Hin as [Hin|Hin];
                     [discriminate Hin|]);
             by apply elem_of_nil in Hin|]).
    apply NoDup_nil_2. }
  unfold all_entries.
  destruct (name_entry args cur) as [entry|] eqn:Hentry; cbn; [|done].
  destruct (name_entry_head _ _ _ Hentry) as [rest ->].
  apply NoDup_cons. split; [|done]. intros Hin.
  repeat (apply elem_of_cons in Hin as [Hin|Hin]; [discriminate Hin|]).
  by apply elem_of_nil in Hin.
Qed.

(** ** Runs *)

Section FurtherRuns.
Context {W T : Type} {base : BaseWorkflowToolHandler W T}.
Implicit Types (args cur upd : object) (w : world W) (s : W) (e : thrown).

(** X1: when validation passes and the fetch succeeds but [updateWorkflow]
    rejects, the operation rejects with that same rejection; one
    [getWorkflow] and one [updateWorkflow] were made, the update on the
    remote state the fetch left, and no success result is built. *)
Theorem update_failure_propagates args w cur s e s' :
  passes_validation args →
  getWorkflow apiService (get args "workflowId") (remote w) = (inr cur, s) →
  updateWorkflow apiService (get args "workflowId") (workflowData args cur) s
    = (inl e, s') →
  execute_fn args w =
    (inl e,
     World s' (calls w ++ [GetWorkflow (get args "workflowId");
                           UpdateWorkflow (get args "workflowId")
                                          (workflowData args cur)])).
Proof.
  intros Hv Hget Hupd. rewrite (execute_fn_fetched _ _ _ _ Hv Hget). cbn.
  by rewrite Hupd.
Qed.

(** X2: whatever the request and the remote side, the operation adds to
    the call record nothing, or one [getWorkflow], or one [getWorkflow]
    followed by one [updateWorkflow]; both calls carry the request's
    [workflowId] as it came; [updateWorkflow] is only ever called after
    [getWorkflow] resolved, with the payload merged from what it resolved
    to. *)
Theorem remote_calls_are_one_get_then_one_update args w :
  ∃ log : list call,
    calls (execute_fn args w).2 = (calls w ++ log)%list ∧
    (log = [] ∨
     log = [GetWorkflow (get args "workflowId")] ∨
     ∃ cur s,
       getWorkflow apiService (get args "workflowId") (remote w)
         = (inr cur, s) ∧
       log = [GetWorkflow (get args "workflowId");
              UpdateWorkflow (get args "workflowId") (workflowData args cur)]).
Proof.
  destruct (passes_validation_cases args) as [Hv|(_ & message & _ & Hrun)].
  - destruct (getWorkflow apiService (get args "workflowId") (remote w))
      as [[e|cur] s] eqn:Hget.
    + rewrite (execute_fn_fetch_rejected _ _ _ _ Hv Hget).
      eexists. split; [reflexivity|]. right. by left.
    + rewrite (execute_fn_fetched _ _ _ _ Hv Hget). cbn.
      eexists. split.
      * by destruct (updateWorkflow _ _ _ _) as [[?|?] ?].
      * right. right. by exists cur, s.
  - rewrite Hrun. exists []. split; [by rewrite app_nil_r | by left].
Qed.

(** X3: no remote call is made exactly when the request fails validation;
    the operation then rejects with an [N8nApiError] carrying one of the
    three validation messages and leaves the world as it was. *)
Theorem no_remote_call_iff_validation_fails args w :
  (calls (execute_fn args w).2 = calls w ↔ ¬ passes_validation args) ∧
  (¬ passes_validation args →
   ∃ message, message ∈ validation_messages ∧
     execute_fn args w = (inl (N8nApiError message), w)).
Proof.
  assert (Hgrow : ∀ (l l' : list call), l' ≠ [] → (l ++ l')%list ≠ l).
  { intros l l' Hne Heq. apply Hne.
    apply (app_inv_head l). by rewrite app_nil_r. }
  destruct (passes_validation_cases args) as [Hv|(Hnv & message & Hm & Hrun)].
  - split; [|done]. split; [|done]. intros Hcalls. exfalso.
    destruct (getWorkflow apiService (get args "workflowId") (remote w))
      as [[e|cur] s] eqn:Hget.
    + rewrite (execute_fn_fetch_rejected _ _ _ _ Hv Hget) in Hcalls.
      by apply Hgrow in Hcalls.
    + rewrite (execute_fn_fetched _ _ _ _ Hv Hget) in Hcalls. cbn in Hcalls.
      destruct (updateWorkflow _ _ _ _) as [[?|?] ?];
        by apply Hgrow in Hcalls.
  - split.
    + split; [done|]. intros _. by rewrite Hrun.
    + intros _. exists message. by split.
Qed.

(** X4: a success result is only returned after the request passed
    validation and both remote calls resolved, and it is then the one
    built from the updated workflow and the change summary. *)
Theorem success_means_both_calls_resolved args w (r : T) :
  (execute_fn args w).1 = inr r →
  passes_validation args ∧
  ∃ cur s upd s' summary,
    getWorkflow apiService (get args "workflowId") (remote w) = (inr cur, s) ∧
    updateWorkflow apiService (get args "workflowId") (workflowData args cur) s
      = (inr upd, s') ∧
    changesSummary args cur = inr summary ∧
    r = formatSuccess (success_data upd)
          ("Workflow updated successfully. " ++ summary) ∧
    (execute_fn args w).2 =
      World s' (calls w ++ [GetWorkflow (get args "workflowId");
                            UpdateWorkflow (get args "workflowId")
                                           (workflowData args cur)]).
Proof.
  intros Hres.
  destruct (passes_validation_cases args) as [Hv|(_ & message & _ & Hrun)].
  - split; [done|].
    destruct (getWorkflow apiService (get args "workflowId") (remote w))
      as [[e|cur] s] eqn:Hget.
    + by rewrite (execute_fn_fetch_rejected _ _ _ _ Hv Hget) in Hres.
    + rewrite (execute_fn_fetched _ _ _ _ Hv Hget) in Hres |- *.
      cbn in Hres |- *.
      destruct (updateWorkflow _ _ _ _) as [[e|upd] s'] eqn:Hupd;
        [done|]. cbn in Hres.
      destruct (changesSummary args cur) as [e|summary] eqn:Hsum; [done|].
      injection Hres as <-.
      by exists cur, s, upd, s', summary.
  - by rewrite Hrun in Hres.
Qed.

(** X10: arguments the tool definition does not declare are ignored: two
    requests that agree on the declared arguments run alike. *)
Theorem undeclared_arguments_are_ignored args (args' : object) w :
  (∀ k, k ∈ declared_arguments → get args k = get args' k) →
  execute_fn args w = execute_fn args' w.
Proof.
  intros Hsame.
  assert (Hid := Hsame "workflowId" ltac:(vm_compute; set_solver)).
  assert (Hname := Hsame "name" ltac:(vm_compute; set_solver)).
  assert (Hnodes := Hsame "nodes" ltac:(vm_compute; set_solver)).
  assert (Hconn := Hsame "connections" ltac:(vm_compute; set_solver)).
  assert (Hset := Hsame "settings" ltac:(vm_compute; set_solver)).
  assert (Hstatic := Hsame "staticData" ltac:(vm_compute; set_solver)).
  unfold execute_fn, changesSummary, changesArray, workflowData.
  by rewrite Hid, Hname, Hnodes, Hconn, Hset, Hstatic.
Qed.

End FurtherRuns.

(** ** The payload and the summary *)

(** X5: every key of the payload is one of the five fields and its value
    is never [undefined]. *)
Theorem payload_values_are_defined (args cur : object) (k : string) (v : value) :
  workflowData args cur !! k = Some v →
  k ∈ fields ∧ v ≠ VUndefined.
Proof.
  rewrite lookup_workflowData. case_decide; [|done].
  destruct (defined (get args k)) eqn:Ha.
  - intros [= <-]. split; [done|]. by apply defined_true.
  - destruct (defined (get cur k)) eqn:Hc; [|done].
    intros [= <-]. split; [done|]. by apply defined_true.
Qed.

(** X6: when, for each of the five fields, the request supplies it or the
    fetched workflow does not have it, the payload is exactly the request's
    own values of the five fields; in particular a request that supplies
    all five overrides the stored workflow whole. *)
Theorem payload_is_request_when_stored_adds_nothing (args cur : object) :
  (∀ f, f ∈ fields → get args f ≠ VUndefined ∨ get cur f = VUndefined) →
  workflowData args cur =
  filter (λ kv, kv.1 ∈ fields ∧ defined kv.2 = true) args.
Proof.
  intros Hcover. apply map_eq. intros k.
  rewrite lookup_workflowData, map_lookup_filter.
  case_decide as Hk.
  - unfold get in *. specialize (Hcover k Hk).
    destruct (args !! k) as [v|]; cbn in *.
    + destruct (defined v) eqn:Hd.
      * rewrite option_guard_True; [done|]. by split.
      * rewrite option_guard_False by (intros [_ ?]; congruence).
        apply defined_false in Hd.
        destruct Hcover as [?|Hc]; [done|]. by rewrite Hc.
    + destruct Hcover as [?|Hc]; [done|]. by rewrite Hc.
  - destruct (args !! k) as [v|]; cbn; [|done].
    rewrite option_guard_False; [done|]. by intros [? _].
Qed.

(** X7: a payload is a fixed point of the merge: merged again over
    itself, under the same request or under a request with no fields, it
    comes out unchanged. *)
Theorem payload_merged_again_is_unchanged (args cur : object) :
  workflowData args (workflowData args cur) = workflowData args cur ∧
  workflowData ∅ (workflowData args cur) = workflowData args cur.
Proof.
  split; apply map_eq; intros k; rewrite !(lookup_workflowData _ _ k);
    case_decide as Hk; try done; rewrite !get_workflowData by done.
  - destruct (defined (get args k)); [done|].
    by destruct (defined (get cur k)).
  - unfold get at 1. rewrite lookup_empty. cbn.
    destruct (defined (get args k)) eqn:Ha; [by rewrite Ha|].
    by destruct (defined (get cur k)).
Qed.

(** X8: whenever [changesArray] is built, its entries come in the fixed
    order name, nodes, connections, settings, staticData, each at most
    once; the only way it is not built is the TypeError of line 70. *)
Theorem changes_are_listed_once_in_order (args cur : object) :
  match changesArray args cur with
  | inr changes =>
      changes `sublist_of` all_entries args cur ∧ NoDup changes
  | inl e => e = TypeError
  end.
Proof.
  destruct (changesArray args cur) as [e|changes] eqn:Hc.
  { by apply changesArray_thrown in Hc as [-> _]. }
  assert (Hsub : changes `sublist_of` all_entries args cur).
  { apply changesArray_built in Hc as [_ ->]. unfold all_entries.
    apply sublist_app.
    - destruct (name_changed args cur); [done|]. apply sublist_nil_l.
    - unfold updated_entries.
      destruct (defined (get args "nodes")),
        (defined (get args "connections")), (defined (get args "settings")),
        (defined (get args "staticData")); cbn [app];
        repeat first [ apply sublist_nil | apply sublist_skip
                     | apply sublist_cons ]. }
  split; [done|].
  eapply sublist_NoDup; [apply all_entries_NoDup | exact Hsub].
Qed.

Lemma nothing_to_report_iff (args cur : object) :
  nothing_to_report args cur ↔
  name_changed args cur = false ∧ updated_entries args = [].
Proof.
  unfold nothing_to_report, name_changed.
  rewrite andb_false_iff, negb_false_iff, defined_false. split.
  - intros [Hname Hrest]. split; [done|]. by apply updated_entries_none.
  - intros [Hname Hnil]. split; [done|]. intros f Hf.
    apply defined_false. destruct (defined (get args f)) eqn:Hd; [|done].
    assert (Hin : (f ++ " updated") ∈ updated_entries args)
      by by apply updated_entries_field.
    rewrite Hnil in Hin. by apply elem_of_nil in Hin.
Qed.

(** X9: the summary is "No changes were made" exactly when there is
    nothing to report: no name was supplied or the supplied name [===] the
    fetched one, and none of nodes, connections, settings, staticData was
    supplied.  When there is something to report and the name change can
    be printed, the summary is "Changes: " followed by the entries of
    [changesArray], which is not empty, joined by ", "; when the name
    change cannot be printed there is no summary but a TypeError. *)
Theorem no_changes_iff_nothing_to_report (args cur : object) :
  (changesSummary args cur = inr "No changes were made" ↔
   nothing_to_report args cur) ∧
  (¬ nothing_to_report args cur →
   name_change_prints args cur →
   ∃ changes : list string,
     changes ≠ [] ∧
     changesArray args cur = inr changes ∧
     changesSummary args cur =
       inr ("Changes: " ++ String.concat ", " changes)) ∧
  (¬ name_change_prints args cur →
   changesSummary args cur = inl TypeError).
Proof.
  split; [|split].
  - rewrite nothing_to_report_iff. split.
    + intros Hsum.
      destruct (changesArray args cur) as [e|changes] eqn:Hc;
        [unfold changesSummary in Hsum; by rewrite Hc in Hsum|].
      rewrite (changesSummary_built _ _ _ Hc) in Hsum.
      case_decide as Hnil; [|discriminate Hsum]. subst changes.
      apply changesArray_built in Hc as [Hp Hc]. symmetry in Hc.
      apply app_eq_nil in Hc as [Hname Hrest]. split; [|done].
      destruct (name_changed args cur) eqn:Hch; [|done].
      by destruct (Hp Hch) as [entry Hentry]; rewrite Hentry in Hname.
    + intros [Hch Hnil].
      rewrite (changesSummary_built args cur []); [done|].
      apply changesArray_built. split; [|by rewrite Hch, Hnil].
      unfold name_change_prints. by rewrite Hch.
  - intros Hsome Hprints.
    pose proof (proj2 (changesArray_built args cur _) (conj Hprints eq_refl))
      as Hc.
    eexists. split; [|split; [exact Hc|]].
    + intros Hnil. apply Hsome, nothing_to_report_iff.
      apply app_eq_nil in Hnil as [Hname Hrest]. split; [|done].
      destruct (name_changed args cur) eqn:Hch; [|done].
      by destruct (Hprints Hch) as [entry Hentry]; rewrite Hentry in Hname.
    + rewrite (changesSummary_built _ _ _ Hc). case_decide as Hnil; [|done].
      exfalso. apply Hsome, nothing_to_report_iff.
      apply app_eq_nil in Hnil as [Hname Hrest]. split; [|done].
      destruct (name_changed args cur) eqn:Hch; [|done].
      by destruct (Hprints Hch) as [entry Hentry]; rewrite Hentry in Hname.
  - intros Hnot. unfold changesSummary. rewrite changesArray_eq.
    unfold name_change_prints in Hnot.
    destruct (name_changed args cur); [|by destruct Hnot].
    destruct (name_entry args cur); [|done]. destruct Hnot. eauto.
Qed.

(** X12: when the fetched workflow has no name and the request supplies
    one that converts to a string, the change is reported as the first
    entry, with "undefined" printed as the old value; when the supplied
    name does not convert, no entry is made and the TypeError comes
    out. *)
Theorem unnamed_workflow_reports_undefined (args cur : object) :
  get cur "name" = VUndefined →
  get args "name" ≠ VUndefined →
  match ToString (get args "name") with
  | Some new =>
      changesArray args cur =
        inr (("name: " ++ dq ++ "undefined" ++ dq ++ " â†’ " ++ dq ++
              new ++ dq) :: updated_entries args)
  | None => changesArray args cur = inl TypeError
  end.
Proof.
  intros Hcur Hname. rewrite changesArray_eq. unfold name_changed, name_entry.
  rewrite Hcur. apply defined_true in Hname. rewrite Hname.
  assert (strict_eq (get args "name") VUndefined = false) as ->
    by by destruct (get args "name").
  cbn. by destruct (ToString (get args "name")).
Qed.

(** ** The tool definition and the handler *)

Lemma conforming_request_validation (args : object) (r : nat) :
  Tool.conforms (Tool.inputSchema getUpdateWorkflowToolDefinition)
                (VObject r args) = true →
  (∃ id, get args "workflowId" = VString id) ∧
  (passes_validation args ↔ get args "workflowId" ≠ VString "").
Proof.
  cbn. rewrite !andb_true_iff, bool_decide_eq_true.
  intros ((Hid & _) & Hwid & _ & Hnodes & Hconn & _).
  unfold passes_validation, get.
  destruct Hid as [wid Hid]. rewrite Hid in Hwid |- *. cbn.
  destruct wid; try discriminate Hwid. cbn. split; [eauto|].
  assert (Hn : truthy (default VUndefined (args !! "nodes")) &&
               negb (isArray (default VUndefined (args !! "nodes"))) = false).
  { destruct (args !! "nodes") as [[]|]; cbn in *; try done;
      by rewrite ?andb_false_r. }
  assert (Hc : truthy (default VUndefined (args !! "connections")) &&
               negb (typeof (default VUndefined (args !! "connections"))
                     =? "object")%string = false).
  { destruct (args !! "connections") as [[]|]; cbn in *; try done. }
  rewrite Hn, Hc. destruct (String.eqb_spec s "") as [->|Hne]; cbn.
  - split; [by intros (? & _)|done].
  - split; [congruence|done].
Qed.

Section ToolAndHandler.
Context {W T : Type} {base : BaseWorkflowToolHandler W T}.

(** X11: a request that conforms to the input schema of the tool
    definition is rejected by the handler exactly when its [workflowId] is
    the empty string, with the missing-parameter error and before any
    remote call; every other conforming request passes validation and
    [getWorkflow] is called with its [workflowId]. *)
Theorem conforming_request_passes_unless_id_is_empty
    (args : object) (r : nat) (w : world W) :
  Tool.conforms (Tool.inputSchema getUpdateWorkflowToolDefinition)
                (VObject r args) = true →
  (get args "workflowId" = VString "" ∧
   execute_fn args w =
     (inl (N8nApiError "Missing required parameter: workflowId"), w)) ∨
  (get args "workflowId" ≠ VString "" ∧
   passes_validation args ∧
   ∃ rest : list call,
     calls (execute_fn args w).2 =
       (calls w ++ GetWorkflow (get args "workflowId") :: rest)%list).
Proof.
  intros Hconf.
  destruct (conforming_request_validation _ _ Hconf) as [[id Hid] Hiff].
  destruct (decide (id = "")) as [->|Hne].
  - left. split; [done|]. unfold execute_fn. by rewrite Hid.
  - right. assert (Hv : passes_validation args).
    { apply Hiff. rewrite Hid. congruence. }
    split; [rewrite Hid; congruence|]. split; [done|].
    destruct (getWorkflow apiService (get args "workflowId") (remote w))
      as [[e|cur] s] eqn:Hget.
    + rewrite (execute_fn_fetch_rejected _ _ _ _ Hv Hget). by exists [].
    + rewrite (execute_fn_fetched _ _ _ _ Hv Hget). cbn.
      eexists. by destruct (updateWorkflow _ _ _ _) as [[?|?] ?].
Qed.

End ToolAndHandler.

(** ** Concrete runs for the further properties *)

Section FurtherMockRuns.
Import Mock.

Local Ltac run := vm_compute; reflexivity.

Lemma read_only_rejection_propagates :
  execute_fn (base := read_only_handler) rename start =
    (inl read_only,
     World (remote start)
           [GetWorkflow (VString "1");
            UpdateWorkflow (VString "1") (workflowData rename stored)]).
Proof.
  exact (update_failure_propagates (base := read_only_handler)
           rename start stored (remote start) read_only (remote start)
           ltac:(repeat split; run) ltac:(run) ltac:(run)).
Defined.

Lemma rename_success_passed_validation :
  passes_validation rename.
Proof.
  refine (proj1 (success_means_both_calls_resolved (base := handler)
                   rename start
                   (success_data (workflowData rename stored ∪ stored),
                    "Workflow updated successfully. Changes: name: " ++
                    dq ++ "A" ++ dq ++ " â†’ " ++ dq ++ "B" ++ dq) _)).
  run.
Defined.

Lemma rename_payload_name_is_defined :
  "name" ∈ fields ∧ VString "B" ≠ VUndefined.
Proof.
  exact (payload_values_are_defined rename stored "name" (VString "B")
           ltac:(run)).
Defined.

Lemma full_request_overrides_stored :
  workflowData full stored =
  filter (λ kv, kv.1 ∈ fields ∧ defined kv.2 = true) full.
Proof.
  apply (payload_is_request_when_stored_adds_nothing full stored).
  intros f Hf. left. unfold fields in Hf.
  rewrite !elem_of_cons, elem_of_nil in Hf.
  destruct Hf as [->|[->|[->|[->|[->|[]]]]]]; discriminate.
Defined.

Lemma verbose_rename_runs_like_rename :
  execute_fn (base := handler) rename_verbose start =
  execute_fn (base := handler) rename start.
Proof.
  apply (undeclared_arguments_are_ignored (base := handler)
           rename_verbose rename start).
  intros k Hk. unfold declared_arguments in Hk. cbn in Hk.
  rewrite !elem_of_cons, elem_of_nil in Hk.
  destruct Hk as [->|[->|[->|[->|[->|[->|[]]]]]]]; run.
Defined.

Lemma rename_conforms_and_passes :
  passes_validation rename ∧
  ∃ rest : list call,
    calls (execute_fn (base := handler) rename start).2 =
      (calls start ++ GetWorkflow (VString "1") :: rest)%list.
Proof.
  destruct (conforming_request_passes_unless_id_is_empty (base := handler)
              rename 0 start ltac:(run))
    as [[Hempty _]|(_ & Hv & Hcalls)].
  - discriminate Hempty.
  - split; [exact Hv | exact Hcalls].
Defined.

Lemma naming_an_unnamed_workflow :
  changesArray rename ∅ =
    inr (("name: " ++ dq ++ "undefined" ++ dq ++ " â†’ " ++ dq ++ "B" ++ dq)
         :: updated_entries rename).
Proof.
  pose proof (unnamed_workflow_reports_undefined rename ∅
                eq_refl ltac:(discriminate)) as Hrun.
  exact Hrun.
Defined.

Lemma rename_reports_changes :
  ∃ changes : list string,
    changes ≠ [] ∧
    changesArray rename stored = inr changes ∧
    changesSummary rename stored =
      inr ("Changes: " ++ String.concat ", " changes).
Proof.
  apply (proj1 (proj2 (no_changes_iff_nothing_to_report rename stored))).
  - intros [[Hname|Hsame] _]; [discriminate Hname | discriminate Hsame].
  - intros _. eexists. run.
Defined.

End FurtherMockRuns.
